(** * Transaction dispatch: [signTransaction] and [sendTransaction]

    A shallow embedding of the two wallet actions
    [src/actions/wallet/signTransaction.ts] and
    [src/actions/wallet/sendTransaction.ts] (the latter is the unnamed
    source file).  Both are straight-line asynchronous functions that call
    a handful of collaborators; the embedding threads an explicit call
    trace through an error monad, so that the order of round-trips, the
    payloads they carry and the error finally delivered can all be stated
    and proved. *)

From stdpp Require Import base option gmap strings list fin_maps.
From Stdlib Require Import ZArith Lia HexString.

Local Open Scope string_scope.
Local Open Scope Z_scope.
Local Open Scope list_scope.

(** ** JavaScript data *)

(** The values that occur in the fields of a transaction request.  Numbers
    are integers here: chain ids and nonces are [VNum], fee and value
    fields are [VBigInt], addresses and data payloads are [VStr]. *)
#[local] Set Warnings "-register-all".
Inductive value : Type :=
  | VUndefined
  | VNull
  | VBool (b : bool)
  | VNum (n : Z)
  | VBigInt (n : Z)
  | VStr (s : string)
  | VArr (l : list value).
#[local] Set Warnings "register-all".

(** A plain JS object: own keys to values.  A key may be present and hold
    [VUndefined], which is different from the key being absent as soon as
    the object is spread into another one. *)
Abbreviation obj := (gmap string value).

(** [o.k] : reading a missing key yields [undefined]. *)
Definition get (o : obj) (k : string) : value := default VUndefined (o !! k).

(** [account.type] *)
Inductive account_type : Type := local | json_rpc.

Record Account : Type := { address : string; type : account_type }.

(** [Account | Address | undefined]: what the [account] key of the
    arguments, or of the client, may hold. *)
Inductive AccountRef : Type :=
  | RefUndefined
  | RefAddress (a : string)
  | RefAccount (a : Account).

(** [chain.serializers.transaction] *)
Definition Serializer : Type := obj → string.

(** A chain descriptor.  [chain_formatters] is [chain.formatters]: absent,
    or an object whose [transactionRequest.format] hook is itself absent or
    present.  [chain_serializers] is [chain.serializers?.transaction]. *)
Record Chain : Type := {
  chain_id : Z;
  chain_formatters : option (option (obj → obj));
  chain_serializers : option Serializer }.

(** The [chain] key of the arguments: [undefined], [null] or a chain. *)
Inductive chain_arg : Type :=
  | ChainUndefined
  | ChainNull
  | ChainSome (c : Chain).

(** The argument object of both actions, and the shape of every derived
    request object: the [account] and [chain] keys, which hold structured
    values, and all the other keys.  [args_account] is [None] when the
    object has no [account] key and [Some RefUndefined] when it has the key
    and the key holds [undefined]; the two differ once the object is
    spread after another [account] key.  For [chain] an absent key and a
    key holding [undefined] are identified. *)
Record Args : Type := {
  args_account : option AccountRef;
  args_chain : chain_arg;
  args_fields : obj }.

Record Client : Type := {
  client_account : option AccountRef;
  client_chain : option Chain }.

(** ** Errors *)

(** The second argument of [getTransactionError]:
    [{ ...args, account, chain: args.chain || undefined }]. *)
Record ErrorContext : Type := {
  ctx_args : Args;
  ctx_account : Account;
  ctx_chain : option Chain }.

Inductive error : Type :=
  | AccountNotFoundError (docsPath : string)
  | ChainNotFoundError
  | ChainMismatchError (declared actual : Z)
  | InvalidRequest (reason : string)
  | RequestPreparationError (reason : string)
  | TransportError (reason : string)
  | SigningError (reason : string)
  | TransactionExecutionError (cause : error) (ctx : ErrorContext).

Abbreviation result A := (error + A)%type.

(** ** The call trace *)

(** The parameter of a [client.request] call: signed bytes or a formatted
    request object. *)
Inductive rpc_param : Type :=
  | ParamHex (s : string)
  | ParamTx (o : obj).

(** One entry per collaborator call, with what was passed and, for the
    calls that cross the process boundary or sign, what came back. *)
Inductive event : Type :=
  | EvAssertRequest (a : Args)
  | EvGetChainId (r : result Z)
  | EvAssertCurrentChain (currentChainId : Z) (chain : chain_arg)
  | EvPrepareRequest (a : Args) (r : result Args)
  | EvSignTransaction (acct : Account) (tx : Args)
      (serializer : option Serializer) (r : result string)
  | EvRequest (method : string) (param : rpc_param) (r : result string)
  | EvNumberToHex (n : Z)
  | EvExtract (rest : obj) (format : obj → obj)
  | EvFormat (format : obj → obj) (o : obj).

(** The round-trips to the node or to the remote channel. *)
Definition is_network (e : event) : bool :=
  match e with
  | EvGetChainId _ | EvPrepareRequest _ _ | EvRequest _ _ _ => true
  | _ => false
  end.

Definition is_request (e : event) : bool :=
  match e with EvRequest _ _ _ => true | _ => false end.

Definition is_signing (e : event) : bool :=
  match e with EvSignTransaction _ _ _ _ => true | _ => false end.

Definition is_chain_fetch (e : event) : bool :=
  match e with EvGetChainId _ => true | _ => false end.

Definition is_chain_compare (e : event) : bool :=
  match e with EvAssertCurrentChain _ _ => true | _ => false end.

(** ** Collaborators

    None of the imported helpers is part of the two source files.  They are
    taken as the fields of an environment; the answers of the node may
    depend on everything that happened before in the call.  A pure hook
    ([numberToHex], a format hook, [extract]) may throw: it is given as
    the value it returns together with the error, if any, that it throws
    on an input instead of returning. *)
Record Env : Type := {
  assertRequest : Args → option error;
  assertCurrentChain : Z → chain_arg → option error;
  numberToHex : Z → string;
  formatTransactionRequest : obj → obj;
  extract : obj → (obj → obj) → obj;
  account_signTransaction :
    Account → Args → option Serializer → result string;
  node_chainId : Client → list event → result Z;
  node_prepareRequest : Client → list event → Args → result Args;
  node_request : Client → list event → string → rpc_param → result string;
  numberToHex_throws : Z → option error;
  extract_throws : obj → (obj → obj) → option error;
  format_throws : (obj → obj) → obj → option error }.

(** ** The monad: a trace and an exception *)

Definition M (A : Type) : Type := list event → list event * result A.

#[global] Instance M_ret : MRet M := λ A a log, (log, inr a).

#[global] Instance M_bind : MBind M := λ A B f m log,
  match m log with
  | (log', inr a) => f a log'
  | (log', inl e) => (log', inl e)
  end.

Definition throw {A} (e : error) : M A := λ log, (log, inl e).

(** [try { m } catch (err) { h err }] *)
Definition try_catch {A} (m : M A) (h : error → M A) : M A := λ log,
  match m log with
  | (log', inl e) => h e log'
  | r => r
  end.

(** A call starts with an empty trace. *)
Definition run {A} (m : M A) : list event * result A := m [].

Definition trace_of {A} (m : M A) : list event := (run m).1.
Definition outcome_of {A} (m : M A) : result A := (run m).2.

(** ** Collaborator calls, as traced operations *)

Section Dispatch.

Variable E : Env.

(** [assertRequest(a)]: pure, throws or returns nothing. *)
Definition assertRequest_call (a : Args) : M unit := λ log,
  (log ++ [EvAssertRequest a],
   match assertRequest E a with Some e => inl e | None => inr tt end).

(** [await getChainId(client)]: one round-trip to the node. *)
Definition getChainId (client : Client) : M Z := λ log,
  let r := node_chainId E client log in (log ++ [EvGetChainId r], r).

(** [assertCurrentChain({ currentChainId, chain })] *)
Definition assertCurrentChain_call (currentChainId : Z) (chain : chain_arg)
  : M unit := λ log,
  (log ++ [EvAssertCurrentChain currentChainId chain],
   match assertCurrentChain E currentChainId chain with
   | Some e => inl e
   | None => inr tt
   end).

(** [await prepareRequest(client, a)] *)
Definition prepareRequest (client : Client) (a : Args) : M Args := λ log,
  let r := node_prepareRequest E client log a in
  (log ++ [EvPrepareRequest a r], r).

(** [await account.signTransaction(tx, { serializer })] *)
Definition signTransaction_call (account : Account) (tx : Args)
    (serializer : option Serializer) : M string := λ log,
  let r := account_signTransaction E account tx serializer in
  (log ++ [EvSignTransaction account tx serializer r], r).

(** [await client.request({ method, params: [param] })] *)
Definition request (client : Client) (method : string) (param : rpc_param)
  : M string := λ log,
  let r := node_request E client log method param in
  (log ++ [EvRequest method param r], r).

(** [numberToHex(n)] *)
Definition numberToHex_call (n : Z) : M string := λ log,
  (log ++ [EvNumberToHex n],
   match numberToHex_throws E n with
   | Some e => inl e
   | None => inr (numberToHex E n)
   end).

(** [extract(rest, { format })] *)
Definition extract_call (rest : obj) (format : obj → obj) : M obj := λ log,
  (log ++ [EvExtract rest format],
   match extract_throws E rest format with
   | Some e => inl e
   | None => inr (extract E rest format)
   end).

(** [format(o)], for the chain's hook or the default formatter. *)
Definition format_call (format : obj → obj) (o : obj) : M obj := λ log,
  (log ++ [EvFormat format o],
   match format_throws E format o with
   | Some e => inl e
   | None => inr (format o)
   end).

(** ** Pieces shared by the two actions *)

(** [const { account: account_ = client.account } = args]: the default
    applies when the key is absent or holds [undefined]. *)
Definition account_or_default (client : Client) (args : Args)
  : option AccountRef :=
  match args_account args with
  | Some RefUndefined | None => client_account client
  | Some a => Some a
  end.

(** [const { chain = client.chain } = args]: the default applies to
    [undefined] only, [null] is kept. *)
Definition chain_or_default (client : Client) (args : Args) : chain_arg :=
  match args_chain args with
  | ChainUndefined =>
      match client_chain client with
      | Some c => ChainSome c
      | None => ChainUndefined
      end
  | c => c
  end.

(** [!account_]: no account, or the empty string. *)
Definition falsy_account (a : option AccountRef) : bool :=
  match a with
  | None | Some RefUndefined => true
  | Some (RefAddress s) => bool_decide (s = "")
  | Some (RefAccount _) => false
  end.

(** Modelled from the spec: [parseAccount] (accounts/utils/parseAccount.js)
    is not among the source files.  Per section 4.1 it accepts a canonical
    account or a bare address and produces a canonical account; a bare
    address carries no signing capability, so it is a remote account.
    [undefined] never gets here, [if (!account_)] throws first (see
    [truthy_account]); the value given for it is never used. *)
Definition parseAccount (a : AccountRef) : Account :=
  match a with
  | RefUndefined => {| address := ""; type := json_rpc |}
  | RefAddress s => {| address := s; type := json_rpc |}
  | RefAccount acc => acc
  end.

(** Modelled from the spec: [getTransactionError]
    (utils/errors/getTransactionError.js) is not among the source files.
    Per section 4.6 it builds one error value that keeps the original
    failure as its cause and attaches the context it is given. *)
Definition getTransactionError (err : error) (ctx : ErrorContext) : error :=
  TransactionExecutionError err ctx.

(** [chain?.serializers?.transaction] *)
Definition serializer_of (chain : chain_arg) : option Serializer :=
  match chain with
  | ChainSome c => chain_serializers c
  | _ => None
  end.

(** [chain?.formatters] *)
Definition formatters_of (chain : chain_arg) : option (option (obj → obj)) :=
  match chain with
  | ChainSome c => chain_formatters c
  | _ => None
  end.

(** [formatters?.transactionRequest?.format || formatTransactionRequest] *)
Definition format_of (formatters : option (option (obj → obj))) : obj → obj :=
  match formatters with
  | Some (Some f) => f
  | _ => formatTransactionRequest E
  end.

(** [a || b] on two optional formatter objects (an object is truthy). *)
Definition formatters_or (a b : option (option (obj → obj)))
  : option (option (obj → obj)) :=
  match a with
  | Some f => Some f
  | None => b
  end.

(** [{ ...o, k: v }] on a request object, for a plain key. *)
Definition with_field (k : string) (v : value) (a : Args) : Args :=
  {| args_account := args_account a;
     args_chain := args_chain a;
     args_fields := <[k := v]> (args_fields a) |}.

(** [if (!account_) throw ...]: the account reference that gets through. *)
Definition truthy_account (a : option AccountRef) : option AccountRef :=
  if falsy_account a then None else a.

(** An object literal [{ ...base, k1, k2, ... }] whose shorthand keys are
    variables destructured from [src]: every key is written, in order, with
    whatever the variable holds ([undefined] when [src] lacks the key). *)
Definition pick (ks : list string) (src base : obj) : obj :=
  foldl (λ acc k, <[k := get src k]> acc) base ks.

(** ** [signTransaction] (signTransaction.ts, lines 41-96) *)

(** [{ account, ...args }], the argument of [assertRequest]: an [account]
    key of [args] itself, whatever it holds, replaces the resolved
    account. *)
Definition sign_assert_arg (account : Account) (args : Args) : Args :=
  {| args_account :=
       match args_account args with
       | Some a => Some a
       | None => Some (RefAccount account)
       end;
     args_chain := args_chain args;
     args_fields := args_fields args |}.

(** [{ chainId, ...transaction }], handed to the local signer. *)
Definition sign_local_payload (chainId : Z) (transaction : obj) : Args :=
  {| args_account := None;
     args_chain := ChainUndefined;
     args_fields := transaction ∪ {[ "chainId" := VNum chainId ]} |}.

(** [{ chainId: numberToHex(chainId), ...format(transaction) }] *)
Definition sign_remote_payload (format : obj → obj) (chainId : Z)
    (transaction : obj) : obj :=
  format transaction ∪ {[ "chainId" := VStr (numberToHex E chainId) ]}.

(** The format hook chosen at lines 74-76. *)
Definition sign_format (client : Client) (chain : chain_arg) : obj → obj :=
  format_of
    (formatters_or (formatters_of chain)
       (client_chain client ≫= chain_formatters)).

Definition signTransaction (client : Client) (args : Args) : M string :=
  let account_ := account_or_default client args in
  let chain := chain_or_default client args in
  let transaction := args_fields args in
  match truthy_account account_ with
  | None => throw (AccountNotFoundError "/docs/actions/wallet/signMessage")
  | Some a =>
      let account := parseAccount a in
      assertRequest_call (sign_assert_arg account args);;
      chainId ← getChainId client;
      match chain with
      | ChainNull => mret tt
      | _ => assertCurrentChain_call chainId chain
      end;;
      let format := sign_format client chain in
      match type account with
      | local =>
          signTransaction_call account
            (sign_local_payload chainId transaction)
            (client_chain client ≫= chain_serializers)
      | json_rpc =>
          hex ← numberToHex_call chainId;
          formatted ← format_call format transaction;
          request client "eth_signTransaction"
            (ParamTx (formatted ∪ {[ "chainId" := VStr hex ]}))
      end
  end.

(** ** [sendTransaction] (sendTransaction.ts, lines 85-186) *)

(** The keys destructured by name from [args]; the others go to [rest]. *)
Definition named_keys : list string :=
  ["accessList"; "data"; "gas"; "gasPrice"; "maxFeePerGas";
   "maxPriorityFeePerGas"; "nonce"; "to"; "value"].

(** [...rest] *)
Definition rest_of (o : obj) : obj := foldr delete o named_keys.

(** [{ account, accessList, chain, data, gas, ..., value, ...rest }], the
    argument of [prepareRequest]. *)
Definition send_prepare_arg (account : Account) (chain : chain_arg)
    (o : obj) : Args :=
  {| args_account := Some (RefAccount account);
     args_chain := chain;
     args_fields := rest_of o ∪ pick named_keys o ∅ |}.

(** [{ ...extracted, accessList, data, from: account.address, gas, ...,
       value }], the argument of the format hook on the remote path, for
    what [extract] returned. *)
Definition send_format_obj (extracted : obj) (account : Account)
    (o : obj) : obj :=
  pick ["gas"; "gasPrice"; "maxFeePerGas"; "maxPriorityFeePerGas";
        "nonce"; "to"; "value"] o
    (<["from" := VStr (address account)]>
       (pick ["accessList"; "data"] o extracted)).

(** The same object with [extract(rest, { format })] in place. *)
Definition send_format_arg (format : obj → obj) (account : Account)
    (o : obj) : obj :=
  send_format_obj (extract E (rest_of o) format) account o.

(** [{ ...args, account, chain: args.chain || undefined }] *)
Definition send_error_context (args : Args) (account : Account)
  : ErrorContext :=
  {| ctx_args := args;
     ctx_account := account;
     ctx_chain :=
       match args_chain args with
       | ChainSome c => Some c
       | _ => None
       end |}.

(** The body of the [try] block, lines 115-178.  [if (!chainId)] holds for
    [undefined] and for the number zero. *)
Definition sendTransaction_try (client : Client) (args : Args)
    (account : Account) : M string :=
  let chain := chain_or_default client args in
  let o := args_fields args in
  assertRequest_call args;;
  chainId ← match chain with
            | ChainNull => mret None
            | _ =>
                chainId ← getChainId client;
                assertCurrentChain_call chainId chain;;
                mret (Some chainId)
            end;
  match type account with
  | local =>
      request_ ← prepareRequest client (send_prepare_arg account chain o);
      chainId ← match chainId with
                | Some n => if n =? 0 then getChainId client else mret n
                | None => getChainId client
                end;
      let serializer := serializer_of chain in
      signedRequest ← signTransaction_call account
                        (with_field "chainId" (VNum chainId) request_)
                        serializer;
      request client "eth_sendRawTransaction" (ParamHex signedRequest)
  | json_rpc =>
      let format := format_of (formatters_of chain) in
      extracted ← extract_call (rest_of o) format;
      request_ ← format_call format (send_format_obj extracted account o);
      request client "eth_sendTransaction" (ParamTx request_)
  end.

Definition sendTransaction (client : Client) (args : Args) : M string :=
  let account_ := account_or_default client args in
  match truthy_account account_ with
  | None => throw (AccountNotFoundError "/docs/actions/wallet/sendTransaction")
  | Some a =>
      let account := parseAccount a in
      try_catch (sendTransaction_try client args account)
        (λ err, throw (getTransactionError err
                         (send_error_context args account)))
  end.

End Dispatch.

(** ** A concrete environment

    Used to run the two actions on the scenarios of section 8. *)

Definition is_set (v : value) : bool :=
  match v with VUndefined => false | _ => true end.

(** Modelled from the spec: [assertRequest]
    (utils/transaction/assertRequest.js) is not among the source files.
    Per sections 3 and 4.2 an intent needs a recipient or a data payload,
    and must not carry a legacy gas price together with a fee-market
    price.  These are two of the rejections section 4.2 lists, enough to
    run the scenarios; no general theorem depends on this instance. *)
Definition assertRequest_spec (a : Args) : option error :=
  let o := args_fields a in
  if negb (is_set (get o "to")) && negb (is_set (get o "data"))
  then Some (InvalidRequest "neither to nor data")
  else if is_set (get o "gasPrice") && is_set (get o "maxFeePerGas")
  then Some (InvalidRequest "fee conflict")
  else None.

(** Modelled from the spec: [assertCurrentChain] (utils/chain.js) is not
    among the source files.  Per section 4.3 it compares the node's chain
    id to the declared chain's id and fails with a mismatch error carrying
    both.  The spec is silent on a missing descriptor; this instance
    rejects it. *)
Definition assertCurrentChain_spec (currentChainId : Z) (chain : chain_arg)
  : option error :=
  match chain with
  | ChainSome c =>
      if currentChainId =? chain_id c then None
      else Some (ChainMismatchError (chain_id c) currentChainId)
  | _ => Some ChainNotFoundError
  end.

(** A baseline formatter for the scenarios: numeric fields become hex
    strings, nothing is added or dropped.  It stands in for the default
    formatter, which is not among the source files; no general theorem
    depends on this instance. *)
Definition format_baseline (o : obj) : obj :=
  (λ v, match v with
        | VNum n | VBigInt n => VStr (HexString.of_Z n)
        | _ => v
        end) <$> o.

(** Modelled from the spec: [prepareRequest]
    (utils/transaction/prepareRequest.js) is not among the source files.
    Per section 4.4 estimated values fill the fields the caller left unset
    and never replace one the caller set. *)
Definition fill_gaps (estimates : obj) (a : Args) : Args :=
  {| args_account := args_account a;
     args_chain := args_chain a;
     args_fields :=
       union_with (λ v w, Some (if is_set v then v else w))
         (args_fields a) estimates |}.

Definition demo_estimates : obj :=
  {[ "gas" := VBigInt 21000; "nonce" := VNum 7;
     "maxFeePerGas" := VBigInt 30; "maxPriorityFeePerGas" := VBigInt 2 ]}.

(** A node that reports chain id [node_id], estimates [demo_estimates],
    and answers every request; a signer that always succeeds. *)
Definition demo_env (node_id : Z) : Env :=
  {| assertRequest := assertRequest_spec;
     assertCurrentChain := assertCurrentChain_spec;
     numberToHex := HexString.of_Z;
     formatTransactionRequest := format_baseline;
     extract := λ rest format,
       filter (λ kv, is_Some (format ∅ !! kv.1)) rest;
     account_signTransaction := λ _ _ _, inr "0x02f86b";
     node_chainId := λ _ _, inr node_id;
     node_prepareRequest := λ _ _ a, inr (fill_gaps demo_estimates a);
     node_request := λ _ _ method _,
       if bool_decide (method = "eth_signTransaction")
       then inr "0x02f86b" else inr "0xhash";
     numberToHex_throws := λ _, None;
     extract_throws := λ _ _, None;
     format_throws := λ _ _, None |}.

(** The same node, unreachable. *)
Definition offline_env : Env :=
  {| assertRequest := assertRequest_spec;
     assertCurrentChain := assertCurrentChain_spec;
     numberToHex := HexString.of_Z;
     formatTransactionRequest := format_baseline;
     extract := λ _ _, ∅;
     account_signTransaction := λ _ _ _, inr "0x02f86b";
     node_chainId := λ _ _, inl (TransportError "eth_chainId");
     node_prepareRequest := λ _ _ _, inl (RequestPreparationError "offline");
     node_request := λ _ _ _ _, inl (TransportError "request");
     numberToHex_throws := λ _, None;
     extract_throws := λ _ _, None;
     format_throws := λ _ _, None |}.

Definition mainnet : Chain :=
  {| chain_id := 1; chain_formatters := None; chain_serializers := None |}.

Definition local_account : Account :=
  {| address := "0xA0Cf798816D4b9b9866b5330EEa46a18382f251e"; type := local |}.

Definition remote_account : Account :=
  {| address := "0xA0Cf798816D4b9b9866b5330EEa46a18382f251e";
     type := json_rpc |}.

Definition bare_client : Client :=
  {| client_account := None; client_chain := None |}.

Definition mainnet_client : Client :=
  {| client_account := None; client_chain := Some mainnet |}.

(** Scenario A's intent: [{ to: 0xABC..., value: 1, gas: 21000 }]. *)
Definition transfer : obj :=
  {[ "to" := VStr "0x70997970c51812dc3a010c7d01b50e0d17dc79c8";
     "value" := VBigInt 1; "gas" := VBigInt 21000 ]}.

Definition intent (account : Account) (chain : chain_arg) (o : obj) : Args :=
  {| args_account := Some (RefAccount account);
     args_chain := chain;
     args_fields := o |}.

(** An intent that carries a chain id of its own, as the parameter type of
    [signTransaction] allows ([{ chainId: number, chain?: never }]). *)
Definition transfer_on_chain_5 : obj := <["chainId" := VNum 5]> transfer.

(** What [sendTransaction] hands to the local signer for [transfer] on
    [demo_env 1] with chain [mainnet] declared. *)
Definition prepared_transfer : Args :=
  with_field "chainId" (VNum 1)
    (fill_gaps demo_estimates
       (send_prepare_arg local_account (ChainSome mainnet) transfer)).

(** What [sendTransaction] hands to the format hook for [transfer] and the
    remote account. *)
Definition formatted_transfer : obj :=
  format_baseline
    (send_format_arg (demo_env 1) format_baseline remote_account transfer).

(** A chain whose id is zero, and a node that reports chain id 0 to the
    first fetch of a call and 7 to any later one. *)
Definition chain_zero : Chain :=
  {| chain_id := 0; chain_formatters := None; chain_serializers := None |}.

Definition drifting_env : Env :=
  {| assertRequest := assertRequest_spec;
     assertCurrentChain := assertCurrentChain_spec;
     numberToHex := HexString.of_Z;
     formatTransactionRequest := format_baseline;
     extract := λ _ _, ∅;
     account_signTransaction := λ _ _ _, inr "0x02f86b";
     node_chainId := λ _ log,
       if existsb is_chain_fetch log then inr 7 else inr 0;
     node_prepareRequest := λ _ _ a, inr (fill_gaps demo_estimates a);
     node_request := λ _ _ _ _, inr "0xhash";
     numberToHex_throws := λ _, None;
     extract_throws := λ _ _, None;
     format_throws := λ _ _, None |}.

(** A chain with a serializer of its own, and a client configured with
    another one. *)
Definition custom_chain : Chain :=
  {| chain_id := 1;
     chain_formatters := None;
     chain_serializers := Some (λ _, "0xcustom") |}.

(** An intent with a key outside the named ones. *)
Definition transfer_with_extra : obj := <["feeCurrency" := VStr "0xcafe"]> transfer.

(** The same node behind a format hook that rejects what it is given. *)
Definition strict_format_env : Env :=
  {| assertRequest := assertRequest_spec;
     assertCurrentChain := assertCurrentChain_spec;
     numberToHex := HexString.of_Z;
     formatTransactionRequest := format_baseline;
     extract := λ _ _, ∅;
     account_signTransaction := λ _ _ _, inr "0x02f86b";
     node_chainId := λ _ _, inr 1;
     node_prepareRequest := λ _ _ a, inr (fill_gaps demo_estimates a);
     node_request := λ _ _ _ _, inr "0xhash";
     numberToHex_throws := λ _, None;
     extract_throws := λ _ _, None;
     format_throws := λ _ _, Some (RequestPreparationError "format") |}.

(** A client with an account of its own, and arguments whose [account]
    key is there and holds [undefined]. *)
Definition local_client : Client :=
  {| client_account := Some (RefAccount local_account);
     client_chain := Some mainnet |}.

Definition undefined_account_args : Args :=
  {| args_account := Some RefUndefined;
     args_chain := ChainUndefined;
     args_fields := transfer |}.

(** ** Reading a trace *)

(** The chain id the node reported to the last fetch of the call. *)
Definition last_reported (tr : list event) : option Z :=
  foldl (λ acc ev, match ev with
                   | EvGetChainId (inr n) => Some n
                   | EvGetChainId (inl _) => None
                   | _ => acc
                   end) None tr.

(** The chain id the node reported to the first fetch of the call, the
    one the chain check compares. *)
Fixpoint first_reported (tr : list event) : option Z :=
  match tr with
  | [] => None
  | EvGetChainId (inr n) :: _ => Some n
  | EvGetChainId (inl _) :: _ => None
  | _ :: tr => first_reported tr
  end.

(** The [chainId] key of the record handed to the local signer. *)
Fixpoint signed_chainId (tr : list event) : option value :=
  match tr with
  | [] => None
  | EvSignTransaction _ tx _ _ :: _ => args_fields tx !! "chainId"
  | _ :: tr => signed_chainId tr
  end.

(** The request object sent with a [client.request] call. *)
Fixpoint sent_request (tr : list event) : option obj :=
  match tr with
  | [] => None
  | EvRequest _ (ParamTx o) _ :: _ => Some o
  | _ :: tr => sent_request tr
  end.

(** The part of a trace that precedes the signing step (all of it when
    nothing was signed). *)
Fixpoint before_signing (tr : list event) : list event :=
  match tr with
  | [] => []
  | ev :: tr' => if is_signing ev then [] else ev :: before_signing tr'
  end.

(** The validator call and the field-preparation call. *)
Definition is_validation (e : event) : bool :=
  match e with EvAssertRequest _ => true | _ => false end.

Definition is_prepare (e : event) : bool :=
  match e with EvPrepareRequest _ _ => true | _ => false end.

(** ** Contracts of the collaborators *)

Section Contracts.

Variable E : Env.

(** What section 4.3 asks of the chain comparison: on a declared chain
    whose id differs from the node's, fail with a mismatch error carrying
    both ids. *)
Definition chain_check_contract : Prop :=
  ∀ (currentChainId : Z) (c : Chain),
    currentChainId ≠ chain_id c →
    assertCurrentChain E currentChainId (ChainSome c) =
      Some (ChainMismatchError (chain_id c) currentChainId).

(** What section 4.4 asks of field preparation: a field the caller set
    comes back unchanged; estimation only fills gaps. *)
Definition prepare_contract : Prop :=
  ∀ (client : Client) (log : list event) (a a' : Args),
    node_prepareRequest E client log a = inr a' →
    ∀ (k : string) (v : value),
      args_fields a !! k = Some v → is_set v = true →
      args_fields a' !! k = Some v.

(** What the remote request needs of the format hook: it passes the [from] key through, as
    a formatter that only re-encodes values does. *)
Definition keeps_from (format : obj → obj) : Prop :=
  ∀ (o : obj) (s : string),
    o !! "from" = Some (VStr s) → format o !! "from" = Some (VStr s).

(** A call that failed, and a failure delivered inside the wrapper. *)
Definition failed (r : result string) : Prop := ∃ e, r = inl e.

Definition delivered_wrapped (r : result string) : Prop :=
  ∃ cause ctx, r = inl (TransactionExecutionError cause ctx).

(** The failure of a traced call, if it failed: the error a pure check or
    hook throws on its argument, or the failure that came back. *)
Definition event_error (ev : event) : option error :=
  match ev with
  | EvAssertRequest a => assertRequest E a
  | EvAssertCurrentChain n c => assertCurrentChain E n c
  | EvGetChainId (inl e) => Some e
  | EvPrepareRequest _ (inl e) => Some e
  | EvSignTransaction _ _ _ (inl e) => Some e
  | EvRequest _ _ (inl e) => Some e
  | EvNumberToHex n => numberToHex_throws E n
  | EvExtract rest format => extract_throws E rest format
  | EvFormat format o => format_throws E format o
  | _ => None
  end.

End Contracts.

(** ** Properties *)

Ltac unfold_dispatch :=
  unfold trace_of, outcome_of, run, sendTransaction, sendTransaction_try,
    signTransaction, try_catch, throw, getTransactionError,
    assertRequest_call, getChainId, assertCurrentChain_call, prepareRequest,
    signTransaction_call, request, numberToHex_call, extract_call,
    format_call in *;
  unfold mbind, M_bind, mret, M_ret in *;
  cbn [app fst snd] in *.

Ltac split_cases :=
  repeat (case_match; simplify_eq; cbn [app fst snd] in *; try done).

Ltac use_answers :=
  repeat match goal with
         | H : ?x = _ |- context [?x] =>
             lazymatch x with
             | node_chainId _ _ _ => idtac
             | node_prepareRequest _ _ _ _ => idtac
             | account_signTransaction _ _ _ _ => idtac
             | node_request _ _ _ _ _ => idtac
             end;
             rewrite H
         end;
  cbn [app fst snd].

Ltac find_in_trace :=
  solve [ repeat first [ apply list_elem_of_here
                       | apply list_elem_of_further ] ].

Ltac in_trace H :=
  repeat (apply elem_of_cons in H as [H|H]; simplify_eq);
  try (apply elem_of_nil in H; destruct H).

Ltac is_answer x :=
  lazymatch x with
  | node_chainId _ _ _ => idtac
  | node_prepareRequest _ _ _ _ => idtac
  | account_signTransaction _ _ _ _ => idtac
  | node_request _ _ _ _ _ => idtac
  end.

Ltac settle_answers :=
  repeat match goal with
         | H : ?x = _, H' : context [?x] |- _ =>
             is_answer x;
             lazymatch H' with H => fail | _ => idtac end;
             rewrite H in H'
         end;
  use_answers.

Ltac case_last_answer :=
  repeat match goal with
         | |- context [account_signTransaction ?E ?a ?t ?s] =>
             destruct (account_signTransaction E a t s) eqn:?
         | |- context [node_request ?E ?c ?l ?m ?p] =>
             destruct (node_request E c l m p) eqn:?
         end.

Ltac all_succeeded :=
  repeat (constructor; [cbn [event_error]; try done|]);
  try (constructor; fail).

Section Properties.

Variable E : Env.

Lemma pick_lookup (ks : list string) (src base : obj) (k : string) :
  pick ks src base !! k =
    if bool_decide (k ∈ ks) then Some (get src k) else base !! k.
Proof.
  unfold pick. revert base.
  induction ks as [|k' ks IH] using rev_ind; intros base.
  - by rewrite bool_decide_eq_false_2 by apply not_elem_of_nil.
  - rewrite foldl_app. cbn [foldl].
    destruct (decide (k = k')) as [->|Hne].
    + rewrite lookup_insert_eq.
      rewrite bool_decide_eq_true_2; [done|].
      apply elem_of_app. right. by apply list_elem_of_singleton.
    + rewrite lookup_insert_ne by done. rewrite IH.
      apply (f_equal (λ b : bool, if b then _ else _)).
      apply bool_decide_ext. rewrite elem_of_app, list_elem_of_singleton.
      intuition congruence.
Qed.

Lemma rest_of_lookup (o : obj) (k : string) :
  rest_of o !! k = if bool_decide (k ∈ named_keys) then None else o !! k.
Proof.
  unfold rest_of. induction named_keys as [|k' ks IH]; cbn [foldr].
  - by rewrite bool_decide_eq_false_2 by apply not_elem_of_nil.
  - destruct (decide (k = k')) as [->|Hne].
    + rewrite lookup_delete_eq.
      rewrite bool_decide_eq_true_2; [done|]. apply list_elem_of_here.
    + rewrite lookup_delete_ne by done. rewrite IH.
      apply (f_equal (λ b : bool, if b then _ else _)).
      apply bool_decide_ext. rewrite elem_of_cons. intuition congruence.
Qed.

(** C7 (validation precedes the network).  Once the account has been
    resolved, an intent that the request validator rejects makes both
    actions fail with the validator's error (as the cause of the wrapped
    error for [sendTransaction]); the trace of the call holds the
    validator call alone, so no network round-trip was performed. *)
Theorem invalid_request_fails_before_network
    (client : Client) (args : Args) (a : AccountRef) :
  truthy_account (account_or_default client args) = Some a →
  (∀ e, assertRequest E (sign_assert_arg (parseAccount a) args) = Some e →
     outcome_of (signTransaction E client args) = inl e ∧
     List.filter is_network (trace_of (signTransaction E client args)) = []) ∧
  (∀ e, assertRequest E args = Some e →
     outcome_of (sendTransaction E client args) =
       inl (TransactionExecutionError e
              (send_error_context args (parseAccount a))) ∧
     List.filter is_network (trace_of (sendTransaction E client args)) = []).
Proof.
  intros Ha. split; intros e He; unfold_dispatch; rewrite Ha, He; done.
Qed.

(** X16 (a mismatch at the chain check is a hard stop).  With a chain
    declared and the check not opted out, when the request passes
    validation and the node answers the chain-id fetch with an id that
    differs from the declared chain's id, both actions fetch, compare and
    stop there: they fail with the mismatch error carrying the two ids
    (wrapped with its context by [sendTransaction]), and nothing is
    prepared, signed or requested. *)
Theorem chain_mismatch_stops_dispatch
    (client : Client) (args : Args) (a : AccountRef) (c : Chain) (n : Z) :
  chain_check_contract E →
  truthy_account (account_or_default client args) = Some a →
  chain_or_default client args = ChainSome c →
  n ≠ chain_id c →
  (assertRequest E (sign_assert_arg (parseAccount a) args) = None →
   node_chainId E client
     [EvAssertRequest (sign_assert_arg (parseAccount a) args)] = inr n →
   run (signTransaction E client args) =
     ([EvAssertRequest (sign_assert_arg (parseAccount a) args);
       EvGetChainId (inr n);
       EvAssertCurrentChain n (ChainSome c)],
      inl (ChainMismatchError (chain_id c) n))) ∧
  (assertRequest E args = None →
   node_chainId E client [EvAssertRequest args] = inr n →
   run (sendTransaction E client args) =
     ([EvAssertRequest args;
       EvGetChainId (inr n);
       EvAssertCurrentChain n (ChainSome c)],
      inl (TransactionExecutionError (ChainMismatchError (chain_id c) n)
             (send_error_context args (parseAccount a))))).
Proof.
  intros Hcheck Ha Hc Hn.
  split; intros Hok Hnode; unfold_dispatch;
    rewrite Ha, Hc, Hok; cbn [app fst snd];
    rewrite Hnode; cbn [app fst snd];
    rewrite (Hcheck n c Hn); reflexivity.
Qed.


(** C10 (the remote request names the sender).  With a remote account,
    the object that [sendTransaction] hands to the format hook always has
    [from] equal to the resolved account's address, whatever the caller's
    fields are; so, with a format hook that passes [from] through, the
    request sent to the channel carries that [from]. *)
Theorem remote_submit_carries_from
    (client : Client) (args : Args) (a : AccountRef)
    (m : string) (p : rpc_param) (r : result string) :
  truthy_account (account_or_default client args) = Some a →
  type (parseAccount a) = json_rpc →
  keeps_from (format_of E (formatters_of (chain_or_default client args))) →
  EvRequest m p r ∈ trace_of (sendTransaction E client args) →
  ∃ q, p = ParamTx q ∧
       q !! "from" = Some (VStr (address (parseAccount a))).
Proof.
  intros Ha Hty Hfmt Hin.
  assert (Hfrom : ∀ extracted,
    send_format_obj extracted (parseAccount a) (args_fields args) !! "from"
      = Some (VStr (address (parseAccount a)))).
  { intros extracted. unfold send_format_obj.
    rewrite pick_lookup.
    rewrite bool_decide_eq_false_2.
    - apply lookup_insert_eq.
    - intros Hk. in_trace Hk. }
  unfold_dispatch. rewrite Ha, Hty in Hin.
  split_cases; in_trace Hin; eexists; (split; [done|]);
    apply Hfmt, Hfrom.
Qed.

(** C8 (caller fields survive).  In [signTransaction] every key of the
    intent reaches the local signer with the caller's value.  In
    [sendTransaction], whose parameter type has no [chainId] key, every
    field the caller set reaches the local signer with the caller's value,
    provided field preparation honours its contract. *)
Theorem caller_fields_survive
    (client : Client) (args : Args) (k : string) (v : value)
    (acct : Account) (tx : Args) (ser : option Serializer)
    (r : result string) :
  args_fields args !! k = Some v →
  (EvSignTransaction acct tx ser r ∈ trace_of (signTransaction E client args) →
     args_fields tx !! k = Some v) ∧
  (prepare_contract E →
   args_fields args !! "chainId" = None →
   is_set v = true →
   EvSignTransaction acct tx ser r ∈ trace_of (sendTransaction E client args) →
     args_fields tx !! k = Some v).
Proof.
  intros Hk. split.
  - intros Hin. unfold_dispatch. split_cases; in_trace Hin;
      cbn [sign_local_payload args_fields];
      by apply lookup_union_Some_l.
  - intros Hprep Hno Hset Hin.
    assert (Hne : k ≠ "chainId") by (intros ->; congruence).
    assert (Harg : ∀ account chain,
      args_fields (send_prepare_arg account chain (args_fields args)) !! k
        = Some v).
    { intros account chain. cbn [send_prepare_arg args_fields].
      destruct (decide (k ∈ named_keys)) as [Hin'|Hnin].
      - apply lookup_union_Some_raw. right. split.
        + rewrite rest_of_lookup. by rewrite bool_decide_eq_true_2.
        + rewrite pick_lookup, bool_decide_eq_true_2 by done.
          unfold get. by rewrite Hk.
      - apply lookup_union_Some_l. rewrite rest_of_lookup.
        by rewrite bool_decide_eq_false_2. }
    unfold_dispatch. split_cases; in_trace Hin;
      cbn [with_field args_fields]; rewrite lookup_insert_ne by done;
      eapply Hprep; eauto.
Qed.

(** C1, amended (where errors are wrapped).  With no usable account both
    actions deliver the bare account error.  Otherwise [sendTransaction]
    fails exactly when the last call of its trace failed (a collaborator
    or a pure hook), and it then delivers one wrapper whose cause is that
    call's error and whose context is the arguments, the resolved account
    and the chain the caller passed in the arguments; [signTransaction]
    fails exactly when the last call of its trace failed, and delivers
    that call's error as it is. *)
Theorem failures_as_delivered (client : Client) (args : Args) :
  (truthy_account (account_or_default client args) = None →
     outcome_of (sendTransaction E client args) =
       inl (AccountNotFoundError "/docs/actions/wallet/sendTransaction") ∧
     outcome_of (signTransaction E client args) =
       inl (AccountNotFoundError "/docs/actions/wallet/signMessage")) ∧
  (∀ a, truthy_account (account_or_default client args) = Some a →
     (∀ e, outcome_of (sendTransaction E client args) = inl e ↔
           ∃ ev cause,
             last (trace_of (sendTransaction E client args)) = Some ev ∧
             event_error E ev = Some cause ∧
             e = TransactionExecutionError cause
                   (send_error_context args (parseAccount a))) ∧
     (∀ e, outcome_of (signTransaction E client args) = inl e ↔
           ∃ ev,
             last (trace_of (signTransaction E client args)) = Some ev ∧
             event_error E ev = Some e)).
Proof.
  split.
  - intros Ha. unfold_dispatch. by rewrite Ha.
  - intros a Ha. unfold_dispatch. rewrite Ha.
    split; intros e; split_cases; settle_answers; case_last_answer; split.
    all: first
      [ intros He; simplify_eq;
        repeat eexists; first [ reflexivity | cbn [event_error]; done ]
      | intros He; destruct He as (ev & He);
        repeat match goal with
               | H : ∃ _, _ |- _ => destruct H
               | H : _ ∧ _ |- _ => destruct H
               end;
        cbn [last] in *; simplify_eq; cbn [event_error] in *;
        congruence ].
Qed.

(** C2, amended (what [chain: null] skips).  When the caller passes
    [chain: null], neither action compares chain ids, and
    [sendTransaction] with a remote account does not fetch the chain id
    either.  [signTransaction] still fetches it, once, as soon as the
    request has passed validation. *)
Theorem null_chain_skips_comparison (client : Client) (args : Args) :
  args_chain args = ChainNull →
  List.filter is_chain_compare (trace_of (signTransaction E client args)) = [] ∧
  List.filter is_chain_compare (trace_of (sendTransaction E client args)) = [] ∧
  (∀ a, truthy_account (account_or_default client args) = Some a →
        type (parseAccount a) = json_rpc →
        List.filter is_chain_fetch
          (trace_of (sendTransaction E client args)) = []) ∧
  (∀ a, truthy_account (account_or_default client args) = Some a →
        assertRequest E (sign_assert_arg (parseAccount a) args) = None →
        length (List.filter is_chain_fetch
                  (trace_of (signTransaction E client args))) = 1%nat).
Proof.
  intros Hnull.
  assert (Hc : chain_or_default client args = ChainNull)
    by (unfold chain_or_default; by rewrite Hnull).
  repeat split; [| |intros a Ha Hty|intros a Ha Hok];
    unfold_dispatch; rewrite Hc;
    try rewrite Ha, Hty; try rewrite Ha, Hok; split_cases.
Qed.

Lemma sign_local_payload_chainId (n : Z) (o : obj) :
  args_fields (sign_local_payload n o) !! "chainId" =
    Some (default (VNum n) (o !! "chainId")).
Proof.
  cbn [sign_local_payload args_fields].
  destruct (o !! "chainId") as [v|] eqn:Ho; cbn [default].
  - by apply lookup_union_Some_l.
  - rewrite lookup_union_r by done. apply lookup_singleton_eq.
Qed.

Lemma sign_remote_payload_chainId (format : obj → obj) (n : Z) (o : obj) :
  sign_remote_payload E format n o !! "chainId" =
    Some (default (VStr (numberToHex E n)) (format o !! "chainId")).
Proof.
  unfold sign_remote_payload.
  destruct (format o !! "chainId") as [v|] eqn:Ho; cbn [default].
  - by apply lookup_union_Some_l.
  - rewrite lookup_union_r by done. apply lookup_singleton_eq.
Qed.

(** C3, amended (which chain id is signed).  In [sendTransaction] the
    record handed to the local signer always carries the chain id the node
    reported last in the same call.  In [signTransaction] the node's
    chain id is only a default: the record handed to the local signer
    carries the caller's own [chainId] key when there is one, and the
    request sent to the remote channel carries the [chainId] key of the
    format hook's output when there is one, hex-encoded node id
    otherwise. *)
Theorem chain_id_handed_to_signing (client : Client) (args : Args) :
  (∀ acct tx ser r,
     EvSignTransaction acct tx ser r ∈ trace_of (sendTransaction E client args) →
     ∃ n, last_reported (trace_of (sendTransaction E client args)) = Some n ∧
          args_fields tx !! "chainId" = Some (VNum n)) ∧
  (∀ acct tx ser r,
     EvSignTransaction acct tx ser r ∈ trace_of (signTransaction E client args) →
     ∃ n, last_reported (trace_of (signTransaction E client args)) = Some n ∧
          args_fields tx !! "chainId" =
            Some (default (VNum n) (args_fields args !! "chainId"))) ∧
  (∀ m q r,
     EvRequest m (ParamTx q) r ∈ trace_of (signTransaction E client args) →
     ∃ n, last_reported (trace_of (signTransaction E client args)) = Some n ∧
          q !! "chainId" =
            Some (default (VStr (numberToHex E n))
                    (sign_format E client (chain_or_default client args)
                       (args_fields args) !! "chainId"))).
Proof.
  (split; [|split]); intros * Hin; unfold_dispatch; split_cases; in_trace Hin;
    use_answers; eexists; (split; [reflexivity|]);
    first [ apply lookup_insert_eq
          | apply sign_local_payload_chainId
          | apply sign_remote_payload_chainId ].
Qed.

(** C4, amended (what precedes local signing).  With a local account no
    [client.request] round-trip (broadcast or remote channel) happens
    before the signing step; the chain-id fetch, and field preparation in
    [sendTransaction], do come first.  The one request [sendTransaction]
    makes afterwards is the broadcast of the bytes the signer returned. *)
Theorem local_signing_precedes_requests
    (client : Client) (args : Args) (a : AccountRef) :
  truthy_account (account_or_default client args) = Some a →
  type (parseAccount a) = local →
  List.filter is_request
    (before_signing (trace_of (signTransaction E client args))) = [] ∧
  List.filter is_request
    (before_signing (trace_of (sendTransaction E client args))) = [] ∧
  (∀ m p r,
     EvRequest m p r ∈ trace_of (sendTransaction E client args) →
     ∃ tx ser bytes,
       EvSignTransaction (parseAccount a) tx ser (inr bytes)
         ∈ trace_of (sendTransaction E client args) ∧
       m = "eth_sendRawTransaction" ∧ p = ParamHex bytes).
Proof.
  intros Ha Hty. unfold_dispatch. rewrite Ha, Hty.
  repeat split; [| |intros m p r Hin]; split_cases.
  all: in_trace Hin.
  all: do 3 eexists; split; [|done].
  all: use_answers; find_in_trace.
Qed.

(** C5, amended (what the remote channel receives).  [signTransaction]
    sends [eth_signTransaction] with the format hook's output to which a
    [chainId] key is added: the object always has the key, holding the
    hex-encoded chain id of the node unless the hook's output has a
    [chainId] of its own.  [sendTransaction] sends [eth_sendTransaction]
    with the format hook's output as it is: the dispatch adds no chain
    id. *)
Theorem remote_request_payloads (client : Client) (args : Args)
    (m : string) (p : rpc_param) (r : result string) :
  (EvRequest m p r ∈ trace_of (signTransaction E client args) →
   ∃ n, last_reported (trace_of (signTransaction E client args)) = Some n ∧
        m = "eth_signTransaction" ∧
        let format := sign_format E client (chain_or_default client args) in
        p = ParamTx (sign_remote_payload E format n (args_fields args)) ∧
        (format (args_fields args) !! "chainId" = None →
         ∀ q, p = ParamTx q →
              q !! "chainId" = Some (VStr (numberToHex E n)))) ∧
  (∀ a, truthy_account (account_or_default client args) = Some a →
        type (parseAccount a) = json_rpc →
        EvRequest m p r ∈ trace_of (sendTransaction E client args) →
        let format :=
          format_of E (formatters_of (chain_or_default client args)) in
        m = "eth_sendTransaction" ∧
        p = ParamTx (format (send_format_arg E format (parseAccount a)
                               (args_fields args)))).
Proof.
  split.
  - intros Hin. unfold_dispatch. split_cases; in_trace Hin; use_answers.
    all: eexists; split; [reflexivity|]; split; [done|]; split; [done|].
    all: intros Hnone q [= <-].
    all: rewrite lookup_union_r by done; apply lookup_singleton_eq.
  - intros a Ha Hty Hin. unfold_dispatch. rewrite Ha, Hty in Hin.
    split_cases; in_trace Hin; done.
Qed.

End Properties.

(** ** The concrete environment honours the contracts *)

Lemma demo_chain_check (node_id : Z) : chain_check_contract (demo_env node_id).
Proof.
  intros n c Hn. cbn. by rewrite (proj2 (Z.eqb_neq n (chain_id c)) Hn).
Qed.

Lemma demo_prepare (node_id : Z) : prepare_contract (demo_env node_id).
Proof.
  intros client log a a' [= <-] k v Hk Hset. cbn [fill_gaps args_fields].
  rewrite lookup_union_with, Hk.
  destruct (demo_estimates !! k); by destruct v.
Qed.

Lemma baseline_keeps_from : keeps_from format_baseline.
Proof.
  intros o s Ho. unfold format_baseline. by rewrite lookup_fmap, Ho.
Qed.

(** ** The scenarios of section 8 *)

(** Scenario A: local account, declared chain 1, node on chain 1: the
    signer receives chain id 1 and the caller's fields. *)
Example scenario_A :
  let tr := trace_of (signTransaction (demo_env 1) bare_client
                        (intent local_account (ChainSome mainnet) transfer)) in
  outcome_of (signTransaction (demo_env 1) bare_client
                (intent local_account (ChainSome mainnet) transfer))
    = inr "0x02f86b" ∧
  signed_chainId tr = Some (VNum 1) ∧
  tr = [ EvAssertRequest (intent local_account (ChainSome mainnet) transfer);
         EvGetChainId (inr 1);
         EvAssertCurrentChain 1 (ChainSome mainnet);
         EvSignTransaction local_account (sign_local_payload 1 transfer) None
           (inr "0x02f86b") ].
Proof. vm_compute. done. Qed.

(** Scenario E: local account, estimation fails. *)
Example scenario_E :
  let env := {| assertRequest := assertRequest_spec;
                assertCurrentChain := assertCurrentChain_spec;
                numberToHex := HexString.of_Z;
                formatTransactionRequest := format_baseline;
                extract := λ _ _, ∅;
                account_signTransaction := λ _ _ _, inr "0x02f86b";
                node_chainId := λ _ _, inr 1;
                node_prepareRequest :=
                  λ _ _ _, inl (RequestPreparationError "estimate");
                node_request := λ _ _ _ _, inr "0xhash";
                numberToHex_throws := λ _, None;
                extract_throws := λ _ _, None;
                format_throws := λ _ _, None |} in
  outcome_of (sendTransaction env bare_client
                (intent local_account (ChainSome mainnet) transfer))
    = inl (TransactionExecutionError (RequestPreparationError "estimate")
             (send_error_context
                (intent local_account (ChainSome mainnet) transfer)
                local_account)).
Proof. vm_compute. done. Qed.

(** ** Where the code departs from the specification *)

(** C1 fails: with the node unreachable, [signTransaction] fails with the
    transport error itself; nothing wraps it. *)
Lemma sign_failure_is_delivered_bare :
  let r := outcome_of (signTransaction offline_env bare_client
                         (intent local_account (ChainSome mainnet) transfer)) in
  r = inl (TransportError "eth_chainId") ∧ failed r ∧ ¬ delivered_wrapped r.
Proof.
  vm_compute. split; [done|]. split; [by eexists|].
  intros (cause & ctx & H). discriminate H.
Qed.

(** C2 fails: with [chain: null], [signTransaction] still fetches the
    chain id from the node. *)
Lemma null_chain_still_fetches :
  let args := intent remote_account ChainNull transfer in
  let tr := trace_of (signTransaction (demo_env 1) bare_client args) in
  args_chain args = ChainNull ∧
  List.filter is_chain_fetch tr = [EvGetChainId (inr 1)] ∧
  List.filter is_chain_fetch tr ≠ [].
Proof. vm_compute. done. Qed.

(** C3 fails: the check is not opted out (the client's chain is used) and
    the node reports chain id 1, yet the record handed to the local signer
    carries the caller's chain id 5. *)
Lemma caller_chain_id_is_signed :
  let args := intent local_account ChainUndefined transfer_on_chain_5 in
  let tr := trace_of (signTransaction (demo_env 1) mainnet_client args) in
  chain_or_default mainnet_client args = ChainSome mainnet ∧
  first_reported tr = Some 1 ∧
  last_reported tr = Some 1 ∧
  signed_chainId tr = Some (VNum 5) ∧
  signed_chainId tr ≠ Some (VNum 1).
Proof. vm_compute. done. Qed.

(** C4 fails: with a local account the chain-id round-trip comes before
    the signing step. *)
Lemma chain_fetch_precedes_local_signing :
  let args := intent local_account (ChainSome mainnet) transfer in
  let tr := trace_of (signTransaction (demo_env 1) bare_client args) in
  type local_account = local ∧
  List.filter is_signing tr =
    [EvSignTransaction local_account (sign_local_payload 1 transfer) None
       (inr "0x02f86b")] ∧
  List.filter is_network (before_signing tr) = [EvGetChainId (inr 1)] ∧
  List.filter is_network (before_signing tr) ≠ [].
Proof. vm_compute. done. Qed.

(** C5 fails: with a remote account, the request that [sendTransaction]
    sends has no [chainId] key, although the node's chain id was fetched
    and checked. *)
Lemma remote_submit_has_no_chain_id :
  let args := intent remote_account (ChainSome mainnet) transfer in
  let tr := trace_of (sendTransaction (demo_env 1) bare_client args) in
  first_reported tr = Some 1 ∧
  sent_request tr = Some formatted_transfer ∧
  formatted_transfer !! "chainId" = None.
Proof. vm_compute. done. Qed.

(** C6 fails in the code: chain 0 is declared and the node reports 0 to
    the check, which passes; [if (!chainId)] then takes the 0 for a
    missing id and fetches again; the node now reports 7, which is not
    compared with the declared chain: the record is signed for chain 7
    and broadcast. *)
Lemma refetched_chain_id_is_not_compared :
  let args := intent local_account (ChainSome chain_zero) transfer in
  let tr := trace_of (sendTransaction drifting_env bare_client args) in
  chain_or_default bare_client args = ChainSome chain_zero ∧
  List.filter is_chain_fetch tr
    = [EvGetChainId (inr 0); EvGetChainId (inr 7)] ∧
  7 ≠ chain_id chain_zero ∧
  List.filter is_chain_compare tr
    = [EvAssertCurrentChain 0 (ChainSome chain_zero)] ∧
  signed_chainId tr = Some (VNum 7) ∧
  List.filter is_request tr
    = [EvRequest "eth_sendRawTransaction" (ParamHex "0x02f86b")
         (inr "0xhash")] ∧
  outcome_of (sendTransaction drifting_env bare_client args) = inr "0xhash".
Proof. vm_compute. done. Qed.

(** ** The theorems at concrete inputs *)

Ltac by_evaluation := vm_compute; first [ reflexivity | done | find_in_trace ].

(** Scenario C: an intent with neither [to] nor [data]. *)
Lemma invalid_request_witness :
  let args := intent local_account (ChainSome mainnet) ∅ in
  let bad := InvalidRequest "neither to nor data" in
  truthy_account (account_or_default bare_client args)
    = Some (RefAccount local_account) ∧
  assertRequest (demo_env 1) args = Some bad ∧
  (outcome_of (signTransaction (demo_env 1) bare_client args) = inl bad ∧
   List.filter is_network
     (trace_of (signTransaction (demo_env 1) bare_client args)) = []) ∧
  (outcome_of (sendTransaction (demo_env 1) bare_client args)
     = inl (TransactionExecutionError bad
              (send_error_context args local_account)) ∧
   List.filter is_network
     (trace_of (sendTransaction (demo_env 1) bare_client args)) = []).
Proof.
  intros args bad.
  assert (Ha : truthy_account (account_or_default bare_client args)
               = Some (RefAccount local_account)) by by_evaluation.
  assert (He : assertRequest (demo_env 1) args = Some bad) by by_evaluation.
  destruct (invalid_request_fails_before_network (demo_env 1) bare_client
              args (RefAccount local_account) Ha) as [Hsign Hsend].
  split; [exact Ha|]. split; [exact He|]. split.
  - apply Hsign. by_evaluation.
  - apply Hsend. exact He.
Defined.

(** Scenario B: chain 1 declared, the node is on chain 5. *)
Lemma chain_mismatch_witness :
  let args := intent local_account (ChainSome mainnet) transfer in
  truthy_account (account_or_default bare_client args)
    = Some (RefAccount local_account) ∧
  chain_or_default bare_client args = ChainSome mainnet ∧
  5 ≠ chain_id mainnet ∧
  assertRequest (demo_env 5) args = None ∧
  node_chainId (demo_env 5) bare_client [EvAssertRequest args] = inr 5 ∧
  run (sendTransaction (demo_env 5) bare_client args) =
    ([EvAssertRequest args; EvGetChainId (inr 5);
      EvAssertCurrentChain 5 (ChainSome mainnet)],
     inl (TransactionExecutionError (ChainMismatchError 1 5)
            (send_error_context args local_account))) ∧
  run (signTransaction (demo_env 5) bare_client args) =
    ([EvAssertRequest args; EvGetChainId (inr 5);
      EvAssertCurrentChain 5 (ChainSome mainnet)],
     inl (ChainMismatchError 1 5)).
Proof.
  intros args.
  assert (Ha : truthy_account (account_or_default bare_client args)
               = Some (RefAccount local_account)) by by_evaluation.
  assert (Hc : chain_or_default bare_client args = ChainSome mainnet)
    by by_evaluation.
  assert (Hn : 5 ≠ chain_id mainnet) by (cbn; lia).
  assert (Hok : assertRequest (demo_env 5) args = None) by by_evaluation.
  assert (Hnode : node_chainId (demo_env 5) bare_client
                    [EvAssertRequest args] = inr 5) by reflexivity.
  destruct (chain_mismatch_stops_dispatch (demo_env 5) bare_client args
              (RefAccount local_account) mainnet 5 (demo_chain_check 5)
              Ha Hc Hn) as [Hsign Hsend].
  split; [exact Ha|]. split; [exact Hc|]. split; [exact Hn|].
  split; [exact Hok|]. split; [exact Hnode|]. split.
  - exact (Hsend Hok Hnode).
  - exact (Hsign Hok Hnode).
Defined.


Lemma remote_from_witness :
  let args := intent remote_account (ChainSome mainnet) transfer in
  keeps_from format_baseline ∧
  EvRequest "eth_sendTransaction" (ParamTx formatted_transfer) (inr "0xhash")
    ∈ trace_of (sendTransaction (demo_env 1) bare_client args) ∧
  ∃ q, ParamTx formatted_transfer = ParamTx q ∧
       q !! "from" = Some (VStr (address remote_account)).
Proof.
  intros args.
  assert (Ha : truthy_account (account_or_default bare_client args)
               = Some (RefAccount remote_account)) by by_evaluation.
  assert (Hin : EvRequest "eth_sendTransaction" (ParamTx formatted_transfer)
                  (inr "0xhash")
                ∈ trace_of (sendTransaction (demo_env 1) bare_client args))
    by by_evaluation.
  split; [exact baseline_keeps_from|]. split; [exact Hin|].
  exact (remote_submit_carries_from (demo_env 1) bare_client args
           (RefAccount remote_account) _ _ _ Ha eq_refl
           baseline_keeps_from Hin).
Defined.

(** Scenario A's [gas] reaches the signer in both actions. *)
Lemma caller_fields_witness :
  let args := intent local_account (ChainSome mainnet) transfer in
  args_fields args !! "gas" = Some (VBigInt 21000) ∧
  prepare_contract (demo_env 1) ∧
  args_fields args !! "chainId" = None ∧
  args_fields (sign_local_payload 1 transfer) !! "gas"
    = Some (VBigInt 21000) ∧
  args_fields prepared_transfer !! "gas" = Some (VBigInt 21000).
Proof.
  intros args.
  assert (Hk : args_fields args !! "gas" = Some (VBigInt 21000))
    by by_evaluation.
  assert (Hno : args_fields args !! "chainId" = None) by by_evaluation.
  split; [exact Hk|]. split; [exact (demo_prepare 1)|]. split; [exact Hno|].
  split.
  - apply (proj1 (caller_fields_survive (demo_env 1) bare_client args "gas"
                    (VBigInt 21000) local_account
                    (sign_local_payload 1 transfer)
                    None (inr "0x02f86b") Hk)).
    by_evaluation.
  - apply (proj2 (caller_fields_survive (demo_env 1) bare_client args "gas"
                    (VBigInt 21000) local_account prepared_transfer
                    None (inr "0x02f86b") Hk));
      [exact (demo_prepare 1) | exact Hno | reflexivity | by_evaluation].
Defined.

(** A format hook that throws: [sendTransaction] wraps its error once,
    with the arguments, the account and the caller's chain. *)
Lemma failures_witness :
  let args := intent remote_account (ChainSome mainnet) transfer in
  let cause := RequestPreparationError "format" in
  truthy_account (account_or_default bare_client args)
    = Some (RefAccount remote_account) ∧
  (∃ ev, last (trace_of (sendTransaction strict_format_env bare_client args))
           = Some ev ∧
         event_error strict_format_env ev = Some cause) ∧
  outcome_of (sendTransaction strict_format_env bare_client args) =
    inl (TransactionExecutionError cause
           (send_error_context args remote_account)).
Proof.
  intros args cause.
  assert (Ha : truthy_account (account_or_default bare_client args)
               = Some (RefAccount remote_account)) by by_evaluation.
  assert (Hlast : ∃ ev,
            last (trace_of (sendTransaction strict_format_env bare_client
                              args)) = Some ev ∧
            event_error strict_format_env ev = Some cause).
  { eexists. split; [vm_compute; reflexivity|reflexivity]. }
  split; [exact Ha|]. split; [exact Hlast|].
  destruct Hlast as (ev & Hev & Herr).
  apply (proj1 (proj2 (failures_as_delivered strict_format_env bare_client
                         args) (RefAccount remote_account) Ha)).
  exists ev, cause. repeat split; assumption.
Defined.

Lemma null_chain_witness :
  let args := intent remote_account ChainNull transfer in
  args_chain args = ChainNull ∧
  List.filter is_chain_compare
    (trace_of (signTransaction (demo_env 1) bare_client args)) = [] ∧
  List.filter is_chain_compare
    (trace_of (sendTransaction (demo_env 1) bare_client args)) = [] ∧
  List.filter is_chain_fetch
    (trace_of (sendTransaction (demo_env 1) bare_client args)) = [].
Proof.
  intros args.
  destruct (null_chain_skips_comparison (demo_env 1) bare_client args
              eq_refl) as (Hsign & Hsend & Hfetch & _).
  split; [reflexivity|]. split; [exact Hsign|]. split; [exact Hsend|].
  apply (Hfetch (RefAccount remote_account)); by_evaluation.
Defined.

Lemma signed_chain_id_witness :
  let args := intent local_account (ChainSome mainnet) transfer in
  EvSignTransaction local_account prepared_transfer None (inr "0x02f86b")
    ∈ trace_of (sendTransaction (demo_env 1) bare_client args) ∧
  ∃ n, last_reported (trace_of (sendTransaction (demo_env 1) bare_client args))
         = Some n ∧
       args_fields prepared_transfer !! "chainId" = Some (VNum n).
Proof.
  intros args.
  assert (Hin : EvSignTransaction local_account prepared_transfer None
                  (inr "0x02f86b")
                ∈ trace_of (sendTransaction (demo_env 1) bare_client args))
    by by_evaluation.
  split; [exact Hin|].
  exact (proj1 (chain_id_handed_to_signing (demo_env 1) bare_client args)
           _ _ _ _ Hin).
Defined.

Lemma local_signing_witness :
  let args := intent local_account (ChainSome mainnet) transfer in
  truthy_account (account_or_default bare_client args)
    = Some (RefAccount local_account) ∧
  type local_account = local ∧
  List.filter is_request
    (before_signing (trace_of (signTransaction (demo_env 1) bare_client args)))
    = [] ∧
  List.filter is_request
    (before_signing (trace_of (sendTransaction (demo_env 1) bare_client args)))
    = [].
Proof.
  intros args.
  assert (Ha : truthy_account (account_or_default bare_client args)
               = Some (RefAccount local_account)) by by_evaluation.
  destruct (local_signing_precedes_requests (demo_env 1) bare_client args
              (RefAccount local_account) Ha eq_refl) as (Hsign & Hsend & _).
  split; [exact Ha|]. split; [reflexivity|]. split; [exact Hsign|exact Hsend].
Defined.

Lemma remote_payload_witness :
  let args := intent remote_account (ChainSome mainnet) transfer in
  EvRequest "eth_sendTransaction" (ParamTx formatted_transfer) (inr "0xhash")
    ∈ trace_of (sendTransaction (demo_env 1) bare_client args) ∧
  ParamTx formatted_transfer =
    ParamTx (format_baseline
               (send_format_arg (demo_env 1) format_baseline remote_account
                  transfer)).
Proof.
  intros args.
  assert (Ha : truthy_account (account_or_default bare_client args)
               = Some (RefAccount remote_account)) by by_evaluation.
  assert (Hin : EvRequest "eth_sendTransaction" (ParamTx formatted_transfer)
                  (inr "0xhash")
                ∈ trace_of (sendTransaction (demo_env 1) bare_client args))
    by by_evaluation.
  split; [exact Hin|].
  exact (proj2 (proj2 (remote_request_payloads (demo_env 1) bare_client args
                         _ _ _)
                  (RefAccount remote_account) Ha eq_refl Hin)).
Defined.

(** ** Further properties of the two actions *)

Section Further.

Variable E : Env.

(** X1 (no account, no call).  When neither the arguments nor the client
    give a usable account, both actions fail with the bare account error
    and call no collaborator; an empty trace happens in no other way. *)
Theorem no_account_no_call (client : Client) (args : Args) :
  (truthy_account (account_or_default client args) = None →
     run (signTransaction E client args) =
       ([], inl (AccountNotFoundError "/docs/actions/wallet/signMessage")) ∧
     run (sendTransaction E client args) =
       ([], inl (AccountNotFoundError "/docs/actions/wallet/sendTransaction"))) ∧
  (trace_of (signTransaction E client args) = [] →
     truthy_account (account_or_default client args) = None) ∧
  (trace_of (sendTransaction E client args) = [] →
     truthy_account (account_or_default client args) = None).
Proof.
  (split; [|split]); [intros Ha|intros Htr|intros Htr]; unfold_dispatch.
  - by rewrite Ha.
  - destruct (truthy_account _); [|done]. revert Htr. split_cases.
  - destruct (truthy_account _); [|done]. revert Htr. split_cases.
Qed.

(** X2 (validation is the first call, made once).  Once the account is
    resolved, the trace of either action starts with the validator call
    and holds no other one.  [signTransaction] validates
    [{ account, ...args }]: the arguments, completed with the resolved
    account only when they have no [account] key of their own (a key
    holding [undefined] is passed on as it is); [sendTransaction]
    validates the arguments exactly as the caller passed them. *)
Theorem validation_comes_first
    (client : Client) (args : Args) (a : AccountRef) :
  truthy_account (account_or_default client args) = Some a →
  (∃ rest, trace_of (signTransaction E client args) =
             EvAssertRequest (sign_assert_arg (parseAccount a) args) :: rest ∧
           List.filter is_validation rest = []) ∧
  (∃ rest, trace_of (sendTransaction E client args) =
             EvAssertRequest args :: rest ∧
           List.filter is_validation rest = []).
Proof.
  intros Ha. split; unfold_dispatch; rewrite Ha; split_cases;
    eexists; (split; [reflexivity|done]).
Qed.

(** X3 (the first failure ends the call).  In the trace of either action,
    collaborators and pure hooks included, no call but the last one
    failed; and an action returns a result exactly when it called
    something and every call of its trace succeeded. *)
Theorem first_failure_ends_the_call (client : Client) (args : Args) :
  (Forall (λ ev, event_error E ev = None)
     (removelast (trace_of (signTransaction E client args))) ∧
   ((∃ h, outcome_of (signTransaction E client args) = inr h) ↔
    trace_of (signTransaction E client args) ≠ [] ∧
    Forall (λ ev, event_error E ev = None)
      (trace_of (signTransaction E client args)))) ∧
  (Forall (λ ev, event_error E ev = None)
     (removelast (trace_of (sendTransaction E client args))) ∧
   ((∃ h, outcome_of (sendTransaction E client args) = inr h) ↔
    trace_of (sendTransaction E client args) ≠ [] ∧
    Forall (λ ev, event_error E ev = None)
      (trace_of (sendTransaction E client args)))).
Proof.
  split; (split; [|split]).
  1, 4: unfold_dispatch; split_cases; settle_answers; cbn [removelast];
    all_succeeded.
  1, 3: intros [h Hh]; unfold_dispatch; split_cases; settle_answers;
    case_last_answer; simplify_eq; (split; [done|]); all_succeeded.
  all: intros [Hne Hall]; unfold_dispatch; split_cases; settle_answers;
    case_last_answer; try (by eexists);
    decompose_Forall_hyps; cbn [event_error] in *; congruence.
Qed.

(** X4 (how often the chain id is fetched).  [signTransaction] fetches the
    chain id at most once.  [sendTransaction] fetches it at most twice; it
    fetches it at most once when the check is opted out, and exactly once
    when the check is on and the node reports a non-zero id. *)
Theorem chain_fetch_count (client : Client) (args : Args) :
  (length (List.filter is_chain_fetch
             (trace_of (signTransaction E client args))) ≤ 1)%nat ∧
  (length (List.filter is_chain_fetch
             (trace_of (sendTransaction E client args))) ≤ 2)%nat ∧
  (chain_or_default client args = ChainNull →
   (length (List.filter is_chain_fetch
              (trace_of (sendTransaction E client args))) ≤ 1)%nat) ∧
  (∀ n, chain_or_default client args ≠ ChainNull →
        first_reported (trace_of (sendTransaction E client args)) = Some n →
        n ≠ 0 →
        length (List.filter is_chain_fetch
                  (trace_of (sendTransaction E client args))) = 1%nat).
Proof.
  (split; [|split; [|split]]); [| |intros Hc|intros n Hc Hn Hnz];
    unfold_dispatch; try rewrite Hc; split_cases; settle_answers;
    cbn in *; simplify_eq; try lia.
Qed.


(** X6 (sign-only with a local account).  With a local account
    [signTransaction] never calls [client.request] and never prepares the
    request; it signs at most once, with the resolved account, and what it
    delivers is the signer's answer as it is. *)
Theorem sign_only_local_returns_signer_answer
    (client : Client) (args : Args) (a : AccountRef) :
  truthy_account (account_or_default client args) = Some a →
  type (parseAccount a) = local →
  List.filter is_request (trace_of (signTransaction E client args)) = [] ∧
  (length (List.filter is_signing
             (trace_of (signTransaction E client args))) ≤ 1)%nat ∧
  (∀ acct tx ser r,
     EvSignTransaction acct tx ser r
       ∈ trace_of (signTransaction E client args) →
     acct = parseAccount a ∧
     outcome_of (signTransaction E client args) = r).
Proof.
  intros Ha Hty. unfold_dispatch. rewrite Ha, Hty.
  (split; [|split]); [| |intros acct tx ser r Hin];
    split_cases; settle_answers; cbn; try lia; in_trace Hin; done.
Qed.

(** X7 (which serializer the signer gets).  [signTransaction] always hands
    the signer the serializer of the client's chain, whatever chain the
    arguments name; [sendTransaction] hands it the serializer of the
    resolved chain (the arguments' chain, else the client's), and none
    when the check is opted out. *)
Theorem serializer_handed_to_signer
    (client : Client) (args : Args)
    (acct : Account) (tx : Args) (ser : option Serializer)
    (r : result string) :
  (EvSignTransaction acct tx ser r
     ∈ trace_of (signTransaction E client args) →
   ser = client_chain client ≫= chain_serializers) ∧
  (EvSignTransaction acct tx ser r
     ∈ trace_of (sendTransaction E client args) →
   ser = serializer_of (chain_or_default client args) ∧
   (args_chain args = ChainNull → ser = None)).
Proof.
  split; intros Hin; unfold_dispatch; split_cases; in_trace Hin;
    try done; split; try done;
    intros Hnull; unfold chain_or_default in *; rewrite Hnull in *;
    simplify_eq.
Qed.

(** X8 (sign-only with a remote account).  With a remote account
    [signTransaction] never calls a local signer and never prepares the
    request; it makes at most one [client.request] call, always
    [eth_signTransaction], and what it delivers is the channel's answer as
    it is. *)
Theorem sign_only_remote_single_round_trip
    (client : Client) (args : Args) (a : AccountRef) :
  truthy_account (account_or_default client args) = Some a →
  type (parseAccount a) = json_rpc →
  List.filter is_signing (trace_of (signTransaction E client args)) = [] ∧
  (length (List.filter is_request
             (trace_of (signTransaction E client args))) ≤ 1)%nat ∧
  (∀ m p r,
     EvRequest m p r ∈ trace_of (signTransaction E client args) →
     m = "eth_signTransaction" ∧
     outcome_of (signTransaction E client args) = r).
Proof.
  intros Ha Hty. unfold_dispatch. rewrite Ha, Hty.
  (split; [|split]); [| |intros m p r Hin];
    split_cases; settle_answers; cbn; try lia; in_trace Hin; done.
Qed.

(** X9 (no local estimation off the local submit path).  [signTransaction]
    never calls [prepareRequest], whatever the arguments hold (a [prepare]
    key included); [sendTransaction] with a remote account calls neither
    [prepareRequest] nor a local signer. *)
Theorem no_preparation_off_the_local_submit_path
    (client : Client) (args : Args) :
  List.filter is_prepare (trace_of (signTransaction E client args)) = [] ∧
  (∀ a, truthy_account (account_or_default client args) = Some a →
        type (parseAccount a) = json_rpc →
        List.filter is_prepare
          (trace_of (sendTransaction E client args)) = [] ∧
        List.filter is_signing
          (trace_of (sendTransaction E client args)) = []).
Proof.
  split; [|intros a Ha Hty]; unfold_dispatch;
    try rewrite Ha, Hty; split_cases.
Qed.

(** X10 (what the chain check compares).  Whenever either action compares
    chain ids, the check is not opted out, the chain compared is the
    resolved one (the arguments' chain, else the client's), and the id
    compared is the one the node reported to the first fetch of the
    call. *)
Theorem comparison_uses_fetched_id
    (client : Client) (args : Args) (n : Z) (c : chain_arg) :
  (EvAssertCurrentChain n c ∈ trace_of (signTransaction E client args) →
   c = chain_or_default client args ∧ c ≠ ChainNull ∧
   first_reported (trace_of (signTransaction E client args)) = Some n) ∧
  (EvAssertCurrentChain n c ∈ trace_of (sendTransaction E client args) →
   c = chain_or_default client args ∧ c ≠ ChainNull ∧
   first_reported (trace_of (sendTransaction E client args)) = Some n).
Proof.
  split; intros Hin; unfold_dispatch; split_cases; settle_answers;
    in_trace Hin; done.
Qed.

(** X11 (only [null] opts out).  When the resolved chain is not [null],
    also when no chain is declared at all, a call whose request passes
    validation fetches the chain id, and when the node answers that
    fetch, the answer is compared with the resolved chain before anything
    else is done.  (An id fetched again later in [sendTransaction] is not
    covered.) *)
Theorem reported_chain_id_is_compared
    (client : Client) (args : Args) (a : AccountRef) (n : Z) :
  truthy_account (account_or_default client args) = Some a →
  chain_or_default client args ≠ ChainNull →
  (assertRequest E (sign_assert_arg (parseAccount a) args) = None →
   node_chainId E client
     [EvAssertRequest (sign_assert_arg (parseAccount a) args)] = inr n →
   ∃ rest, trace_of (signTransaction E client args) =
             [EvAssertRequest (sign_assert_arg (parseAccount a) args);
              EvGetChainId (inr n);
              EvAssertCurrentChain n (chain_or_default client args)]
             ++ rest) ∧
  (assertRequest E args = None →
   node_chainId E client [EvAssertRequest args] = inr n →
   ∃ rest, trace_of (sendTransaction E client args) =
             [EvAssertRequest args;
              EvGetChainId (inr n);
              EvAssertCurrentChain n (chain_or_default client args)]
             ++ rest).
Proof.
  intros Ha Hc.
  split; intros Hok Hnode; unfold_dispatch;
    rewrite Ha, Hok; cbn [app fst snd];
    destruct (chain_or_default client args) eqn:Hch; try done;
    rewrite Hnode; cbn [app fst snd];
    split_cases; eexists; cbn [app]; reflexivity.
Qed.

Lemma send_prepare_arg_lookup
    (account : Account) (chain : chain_arg) (o : obj) (k : string) :
  args_fields (send_prepare_arg account chain o) !! k =
    if bool_decide (k ∈ named_keys) then Some (get o k) else o !! k.
Proof.
  cbn [send_prepare_arg args_fields].
  destruct (decide (k ∈ named_keys)) as [Hin|Hnin].
  - rewrite bool_decide_eq_true_2 by done.
    rewrite lookup_union_r.
    + by rewrite pick_lookup, bool_decide_eq_true_2.
    + by rewrite rest_of_lookup, bool_decide_eq_true_2.
  - rewrite bool_decide_eq_false_2 by done.
    destruct (o !! k) as [v|] eqn:Hk.
    + apply lookup_union_Some_l.
      by rewrite rest_of_lookup, bool_decide_eq_false_2.
    + rewrite lookup_union_r.
      * by rewrite pick_lookup, bool_decide_eq_false_2.
      * by rewrite rest_of_lookup, bool_decide_eq_false_2.
Qed.

(** X12 (what field preparation receives).  The object [sendTransaction]
    passes to [prepareRequest] holds the resolved account and the resolved
    chain; each of the nine named keys is present, with the caller's value
    or [undefined] when the caller left it out, and every other key of the
    arguments is passed unchanged. *)
Theorem prepare_request_argument
    (client : Client) (args : Args) (p : Args) (r : result Args) :
  EvPrepareRequest p r ∈ trace_of (sendTransaction E client args) →
  ∃ a, truthy_account (account_or_default client args) = Some a ∧
       args_account p = Some (RefAccount (parseAccount a)) ∧
       args_chain p = chain_or_default client args ∧
       ∀ k, args_fields p !! k =
              if bool_decide (k ∈ named_keys)
              then Some (get (args_fields args) k)
              else args_fields args !! k.
Proof.
  intros Hin. unfold_dispatch.
  destruct (truthy_account _) as [a|]; [|by in_trace Hin].
  exists a. split; [done|].
  split_cases; settle_answers; in_trace Hin;
    (split; [done|]); (split; [done|]);
    intros k; apply send_prepare_arg_lookup.
Qed.

Lemma send_format_arg_lookup
    (format : obj → obj) (account : Account) (o : obj) (k : string) :
  send_format_arg E format account o !! k =
    if bool_decide (k = "from") then Some (VStr (address account))
    else if bool_decide (k ∈ named_keys) then Some (get o k)
    else extract E (rest_of o) format !! k.
Proof.
  unfold send_format_arg, send_format_obj. rewrite pick_lookup.
  case_bool_decide as H7.
  - rewrite bool_decide_eq_false_2 by (intros ->; in_trace H7).
    rewrite bool_decide_eq_true_2; [done|].
    unfold named_keys. in_trace H7; find_in_trace.
  - case_bool_decide as Hfrom.
    + subst k. apply lookup_insert_eq.
    + rewrite lookup_insert_ne by done. rewrite pick_lookup.
      case_bool_decide as H2.
      * rewrite bool_decide_eq_true_2; [done|].
        unfold named_keys. in_trace H2; find_in_trace.
      * rewrite bool_decide_eq_false_2; [done|].
        intros Hn. unfold named_keys in Hn.
        in_trace Hn;
          first [ apply H2; find_in_trace | apply H7; find_in_trace ].
Qed.

(** X13 (what the format hook receives on the remote submit path).  The
    request [sendTransaction] sends for a remote account is the format
    hook applied to an object in which [from] is the account's address,
    each of the nine named keys holds the caller's value or [undefined],
    and any other key is there only if [extract] returned it; [extract]
    itself is given the caller's fields without the named keys. *)
Theorem format_hook_argument
    (client : Client) (args : Args) (a : AccountRef)
    (m : string) (q : obj) (r : result string) :
  truthy_account (account_or_default client args) = Some a →
  type (parseAccount a) = json_rpc →
  EvRequest m (ParamTx q) r ∈ trace_of (sendTransaction E client args) →
  let format := format_of E (formatters_of (chain_or_default client args)) in
  ∃ o, q = format o ∧
       (∀ k, o !! k =
          if bool_decide (k = "from")
          then Some (VStr (address (parseAccount a)))
          else if bool_decide (k ∈ named_keys)
          then Some (get (args_fields args) k)
          else extract E (rest_of (args_fields args)) format !! k) ∧
       (∀ k, k ∈ named_keys → rest_of (args_fields args) !! k = None).
Proof.
  intros Ha Hty Hin format. subst format.
  unfold_dispatch. rewrite Ha, Hty in Hin.
  split_cases; in_trace Hin; eexists; (split; [reflexivity|]);
    (split; [intros k; apply send_format_arg_lookup|]);
    intros k Hk; by rewrite rest_of_lookup, bool_decide_eq_true_2.
Qed.

(** X14 (how many round-trips a call makes).  [signTransaction] makes at
    most two network round-trips and [sendTransaction] at most four; with
    a remote account [sendTransaction] makes at most two, and at most one
    when the check is opted out. *)
Theorem round_trip_bounds (client : Client) (args : Args) :
  (length (List.filter is_network
             (trace_of (signTransaction E client args))) ≤ 2)%nat ∧
  (length (List.filter is_network
             (trace_of (sendTransaction E client args))) ≤ 4)%nat ∧
  (∀ a, truthy_account (account_or_default client args) = Some a →
        type (parseAccount a) = json_rpc →
        (length (List.filter is_network
                   (trace_of (sendTransaction E client args))) ≤ 2)%nat ∧
        (chain_or_default client args = ChainNull →
         (length (List.filter is_network
                    (trace_of (sendTransaction E client args))) ≤ 1)%nat)).
Proof.
  (split; [|split]); [| |intros a Ha Hty; split; [|intros Hc]];
    unfold_dispatch; try rewrite Ha, Hty; try rewrite Hc;
    split_cases; cbn; lia.
Qed.

(** X15 (a successful local submit).  When [sendTransaction] returns a
    reference for a local account, its trace ends with one signing step by
    the resolved account followed by one [eth_sendRawTransaction] request
    that carries exactly the bytes the signer returned; nothing was signed
    or requested before, and the reference is the node's answer. *)
Theorem local_submit_success_shape
    (client : Client) (args : Args) (a : AccountRef) (h : string) :
  truthy_account (account_or_default client args) = Some a →
  type (parseAccount a) = local →
  outcome_of (sendTransaction E client args) = inr h →
  ∃ pre tx ser bytes,
    trace_of (sendTransaction E client args) =
      pre ++ [EvSignTransaction (parseAccount a) tx ser (inr bytes);
              EvRequest "eth_sendRawTransaction" (ParamHex bytes) (inr h)] ∧
    List.filter is_signing pre = [] ∧
    List.filter is_request pre = [].
Proof.
  intros Ha Hty Hout. unfold_dispatch. rewrite Ha, Hty in *.
  split_cases; settle_answers;
    first [ by eexists [_; _; _], _, _, _
          | by eexists [_; _; _; _], _, _, _
          | by eexists [_; _; _; _; _], _, _, _ ].
Qed.

End Further.

(** ** The further properties at concrete inputs *)

Lemma no_account_witness :
  let args := {| args_account := None; args_chain := ChainNull;
                 args_fields := transfer |} in
  truthy_account (account_or_default bare_client args) = None ∧
  run (signTransaction (demo_env 1) bare_client args) =
    ([], inl (AccountNotFoundError "/docs/actions/wallet/signMessage")) ∧
  run (sendTransaction (demo_env 1) bare_client args) =
    ([], inl (AccountNotFoundError "/docs/actions/wallet/sendTransaction")).
Proof.
  intros args.
  assert (Ha : truthy_account (account_or_default bare_client args) = None)
    by by_evaluation.
  split; [exact Ha|].
  exact (proj1 (no_account_no_call (demo_env 1) bare_client args) Ha).
Defined.

Lemma validation_first_witness :
  truthy_account (account_or_default local_client undefined_account_args)
    = Some (RefAccount local_account) ∧
  args_account (sign_assert_arg local_account undefined_account_args)
    = Some RefUndefined ∧
  (∃ rest, trace_of (signTransaction (demo_env 1) local_client
                       undefined_account_args) =
             EvAssertRequest
               (sign_assert_arg local_account undefined_account_args)
             :: rest ∧
           List.filter is_validation rest = []) ∧
  (∃ rest, trace_of (sendTransaction (demo_env 1) local_client
                       undefined_account_args) =
             EvAssertRequest undefined_account_args :: rest ∧
           List.filter is_validation rest = []).
Proof.
  assert (Ha : truthy_account
                 (account_or_default local_client undefined_account_args)
               = Some (RefAccount local_account)) by by_evaluation.
  split; [exact Ha|]. split; [reflexivity|].
  exact (validation_comes_first (demo_env 1) local_client
           undefined_account_args (RefAccount local_account) Ha).
Defined.

Lemma first_failure_witness :
  let args := intent local_account (ChainSome mainnet) transfer in
  outcome_of (sendTransaction (demo_env 1) bare_client args) = inr "0xhash" ∧
  trace_of (sendTransaction (demo_env 1) bare_client args) ≠ [] ∧
  Forall (λ ev, event_error (demo_env 1) ev = None)
    (trace_of (sendTransaction (demo_env 1) bare_client args)).
Proof.
  intros args.
  assert (Hout : outcome_of (sendTransaction (demo_env 1) bare_client args)
                 = inr "0xhash") by by_evaluation.
  split; [exact Hout|].
  apply (proj1 (proj2 (proj2 (first_failure_ends_the_call (demo_env 1)
                                bare_client args)))).
  exists "0xhash". exact Hout.
Defined.

Lemma chain_fetch_count_witness :
  let args := intent local_account (ChainSome mainnet) transfer in
  chain_or_default bare_client args ≠ ChainNull ∧
  first_reported (trace_of (sendTransaction (demo_env 1) bare_client args))
    = Some 1 ∧
  1 ≠ 0 ∧
  length (List.filter is_chain_fetch
            (trace_of (sendTransaction (demo_env 1) bare_client args)))
    = 1%nat.
Proof.
  intros args.
  assert (Hc : chain_or_default bare_client args ≠ ChainNull)
    by (vm_compute; discriminate).
  assert (Hn : first_reported
                 (trace_of (sendTransaction (demo_env 1) bare_client args))
               = Some 1) by by_evaluation.
  assert (Hnz : 1 ≠ 0) by lia.
  split; [exact Hc|]. split; [exact Hn|]. split; [exact Hnz|].
  exact (proj2 (proj2 (proj2 (chain_fetch_count (demo_env 1) bare_client
                                args))) 1 Hc Hn Hnz).
Defined.


Lemma sign_only_local_witness :
  let args := intent local_account (ChainSome mainnet) transfer in
  truthy_account (account_or_default bare_client args)
    = Some (RefAccount local_account) ∧
  type local_account = local ∧
  List.filter is_request
    (trace_of (signTransaction (demo_env 1) bare_client args)) = [] ∧
  (length (List.filter is_signing
             (trace_of (signTransaction (demo_env 1) bare_client args)))
     ≤ 1)%nat.
Proof.
  intros args.
  assert (Ha : truthy_account (account_or_default bare_client args)
               = Some (RefAccount local_account)) by by_evaluation.
  destruct (sign_only_local_returns_signer_answer (demo_env 1) bare_client
              args (RefAccount local_account) Ha eq_refl)
    as (Hreq & Hsig & _).
  split; [exact Ha|]. split; [reflexivity|]. split; [exact Hreq|exact Hsig].
Defined.

Lemma serializer_witness :
  let args := intent local_account (ChainSome custom_chain) transfer in
  EvSignTransaction local_account (sign_local_payload 1 transfer) None
    (inr "0x02f86b")
    ∈ trace_of (signTransaction (demo_env 1) mainnet_client args) ∧
  (None : option Serializer) = client_chain mainnet_client ≫= chain_serializers.
Proof.
  intros args.
  assert (Hin : EvSignTransaction local_account
                  (sign_local_payload 1 transfer) None (inr "0x02f86b")
                ∈ trace_of (signTransaction (demo_env 1) mainnet_client args))
    by by_evaluation.
  split; [exact Hin|].
  exact (proj1 (serializer_handed_to_signer (demo_env 1) mainnet_client args
                  _ _ _ _) Hin).
Defined.

Lemma sign_only_remote_witness :
  let args := intent remote_account (ChainSome mainnet) transfer in
  truthy_account (account_or_default bare_client args)
    = Some (RefAccount remote_account) ∧
  type remote_account = json_rpc ∧
  List.filter is_signing
    (trace_of (signTransaction (demo_env 1) bare_client args)) = [] ∧
  (length (List.filter is_request
             (trace_of (signTransaction (demo_env 1) bare_client args)))
     ≤ 1)%nat.
Proof.
  intros args.
  assert (Ha : truthy_account (account_or_default bare_client args)
               = Some (RefAccount remote_account)) by by_evaluation.
  destruct (sign_only_remote_single_round_trip (demo_env 1) bare_client
              args (RefAccount remote_account) Ha eq_refl)
    as (Hsig & Hreq & _).
  split; [exact Ha|]. split; [reflexivity|]. split; [exact Hsig|exact Hreq].
Defined.

Lemma no_preparation_witness :
  let args := intent remote_account (ChainSome mainnet) transfer in
  truthy_account (account_or_default bare_client args)
    = Some (RefAccount remote_account) ∧
  List.filter is_prepare
    (trace_of (sendTransaction (demo_env 1) bare_client args)) = [] ∧
  List.filter is_signing
    (trace_of (sendTransaction (demo_env 1) bare_client args)) = [].
Proof.
  intros args.
  assert (Ha : truthy_account (account_or_default bare_client args)
               = Some (RefAccount remote_account)) by by_evaluation.
  split; [exact Ha|].
  exact (proj2 (no_preparation_off_the_local_submit_path (demo_env 1)
                  bare_client args) (RefAccount remote_account) Ha eq_refl).
Defined.

Lemma comparison_witness :
  let args := intent local_account ChainUndefined transfer in
  EvAssertCurrentChain 1 (ChainSome mainnet)
    ∈ trace_of (sendTransaction (demo_env 1) mainnet_client args) ∧
  ChainSome mainnet = chain_or_default mainnet_client args ∧
  ChainSome mainnet ≠ ChainNull ∧
  first_reported (trace_of (sendTransaction (demo_env 1) mainnet_client args))
    = Some 1.
Proof.
  intros args.
  assert (Hin : EvAssertCurrentChain 1 (ChainSome mainnet)
                ∈ trace_of (sendTransaction (demo_env 1) mainnet_client args))
    by by_evaluation.
  split; [exact Hin|].
  exact (proj2 (comparison_uses_fetched_id (demo_env 1) mainnet_client args
                  1 (ChainSome mainnet)) Hin).
Defined.

(** No chain declared anywhere: the check still runs, on an undefined
    chain. *)
Lemma undeclared_chain_witness :
  let args := intent remote_account ChainUndefined transfer in
  truthy_account (account_or_default bare_client args)
    = Some (RefAccount remote_account) ∧
  chain_or_default bare_client args ≠ ChainNull ∧
  assertRequest (demo_env 1) args = None ∧
  node_chainId (demo_env 1) bare_client [EvAssertRequest args] = inr 1 ∧
  ∃ rest, trace_of (sendTransaction (demo_env 1) bare_client args) =
            [EvAssertRequest args; EvGetChainId (inr 1);
             EvAssertCurrentChain 1 ChainUndefined] ++ rest.
Proof.
  intros args.
  assert (Ha : truthy_account (account_or_default bare_client args)
               = Some (RefAccount remote_account)) by by_evaluation.
  assert (Hc : chain_or_default bare_client args ≠ ChainNull)
    by (vm_compute; discriminate).
  assert (Hok : assertRequest (demo_env 1) args = None) by by_evaluation.
  assert (Hnode : node_chainId (demo_env 1) bare_client
                    [EvAssertRequest args] = inr 1) by reflexivity.
  split; [exact Ha|]. split; [exact Hc|]. split; [exact Hok|].
  split; [exact Hnode|].
  exact (proj2 (reported_chain_id_is_compared (demo_env 1) bare_client args
                  (RefAccount remote_account) 1 Ha Hc) Hok Hnode).
Defined.

Lemma prepare_argument_witness :
  let args := intent local_account (ChainSome mainnet) transfer_with_extra in
  let p := send_prepare_arg local_account (ChainSome mainnet)
             transfer_with_extra in
  EvPrepareRequest p (inr (fill_gaps demo_estimates p))
    ∈ trace_of (sendTransaction (demo_env 1) bare_client args) ∧
  ∃ a, truthy_account (account_or_default bare_client args) = Some a ∧
       args_account p = Some (RefAccount (parseAccount a)) ∧
       args_chain p = chain_or_default bare_client args ∧
       ∀ k, args_fields p !! k =
              if bool_decide (k ∈ named_keys)
              then Some (get (args_fields args) k)
              else args_fields args !! k.
Proof.
  intros args p.
  assert (Hin : EvPrepareRequest p (inr (fill_gaps demo_estimates p))
                ∈ trace_of (sendTransaction (demo_env 1) bare_client args))
    by by_evaluation.
  split; [exact Hin|].
  exact (prepare_request_argument (demo_env 1) bare_client args _ _ Hin).
Defined.

Lemma format_argument_witness :
  let args := intent remote_account (ChainSome mainnet) transfer in
  truthy_account (account_or_default bare_client args)
    = Some (RefAccount remote_account) ∧
  type remote_account = json_rpc ∧
  EvRequest "eth_sendTransaction" (ParamTx formatted_transfer) (inr "0xhash")
    ∈ trace_of (sendTransaction (demo_env 1) bare_client args) ∧
  ∃ o, formatted_transfer = format_baseline o ∧
       (∀ k, o !! k =
          if bool_decide (k = "from")
          then Some (VStr (address remote_account))
          else if bool_decide (k ∈ named_keys)
          then Some (get (args_fields args) k)
          else extract (demo_env 1) (rest_of (args_fields args))
                 format_baseline !! k) ∧
       (∀ k, k ∈ named_keys → rest_of (args_fields args) !! k = None).
Proof.
  intros args.
  assert (Ha : truthy_account (account_or_default bare_client args)
               = Some (RefAccount remote_account)) by by_evaluation.
  assert (Hin : EvRequest "eth_sendTransaction" (ParamTx formatted_transfer)
                  (inr "0xhash")
                ∈ trace_of (sendTransaction (demo_env 1) bare_client args))
    by by_evaluation.
  split; [exact Ha|]. split; [reflexivity|]. split; [exact Hin|].
  exact (format_hook_argument (demo_env 1) bare_client args
           (RefAccount remote_account) _ _ _ Ha eq_refl Hin).
Defined.

Lemma round_trip_witness :
  let args := intent remote_account ChainNull transfer in
  truthy_account (account_or_default bare_client args)
    = Some (RefAccount remote_account) ∧
  chain_or_default bare_client args = ChainNull ∧
  (length (List.filter is_network
             (trace_of (sendTransaction (demo_env 1) bare_client args)))
     ≤ 1)%nat.
Proof.
  intros args.
  assert (Ha : truthy_account (account_or_default bare_client args)
               = Some (RefAccount remote_account)) by by_evaluation.
  split; [exact Ha|]. split; [reflexivity|].
  exact (proj2 (proj2 (proj2 (round_trip_bounds (demo_env 1) bare_client
                                args))
                  (RefAccount remote_account) Ha eq_refl) eq_refl).
Defined.

Lemma local_submit_witness :
  let args := intent local_account (ChainSome mainnet) transfer in
  truthy_account (account_or_default bare_client args)
    = Some (RefAccount local_account) ∧
  type local_account = local ∧
  outcome_of (sendTransaction (demo_env 1) bare_client args) = inr "0xhash" ∧
  ∃ pre tx ser bytes,
    trace_of (sendTransaction (demo_env 1) bare_client args) =
      pre ++ [EvSignTransaction local_account tx ser (inr bytes);
              EvRequest "eth_sendRawTransaction" (ParamHex bytes)
                (inr "0xhash")] ∧
    List.filter is_signing pre = [] ∧
    List.filter is_request pre = [].
Proof.
  intros args.
  assert (Ha : truthy_account (account_or_default bare_client args)
               = Some (RefAccount local_account)) by by_evaluation.
  assert (Hout : outcome_of (sendTransaction (demo_env 1) bare_client args)
                 = inr "0xhash") by by_evaluation.
  split; [exact Ha|]. split; [reflexivity|]. split; [exact Hout|].
  exact (local_submit_success_shape (demo_env 1) bare_client args
           (RefAccount local_account) "0xhash" Ha eq_refl Hout).
Defined.
